(** * SyncTalk: the user controller (server/src/controller/user.js)

    A shallow embedding of the five request handlers of the user
    controller: [registerUser], [loginUser], [updateUser], [findUsers] and
    [followUser].  Each handler is a function from the request and the
    document store to the new store and the reply the handler gives.

    Conventions of the embedding.
    - A MongoDB collection is the list of its documents in insertion order;
      [findOne] returns the first document that matches, a saved document
      replaces the one it was read from, a new document is appended.
    - An ObjectId is modelled by the string [toString()] gives for it, and a
      request parameter that carries an id is such a string, so that the
      comparison [req.user._id.toString() === userId] of the source is the
      equality of ids.
    - A JavaScript string is a [string] of code units below 256.
    - A field of a request body that is absent ([undefined]) is [None].
    - The libraries the controller calls (bcryptjs, jsonwebtoken, the regular
      expression engine of the database) and the helpers of the repository
      that are not part of the controller are parameters of the section. *)

From Stdlib Require Import String Ascii List Bool Arith NArith Lia.
Import ListNotations.
Local Open Scope string_scope.
Local Open Scope list_scope.

(** ** JavaScript values the controller tests *)

Module Js.

(** Truthiness of a value that is a string or [undefined]: [!x] holds for
    [undefined] and for the empty string. *)
Definition truthy (x : option string) : bool :=
  match x with
  | Some s => negb (s =? "")
  | None => false
  end.

(** [String.prototype.toLowerCase] on one code unit below 256: the letters
    A-Z, and the Latin-1 capitals U+00C0-U+00DE except the multiplication
    sign U+00D7, move up by 32. *)
Definition lower_unit (c : ascii) : ascii :=
  let n := nat_of_ascii c in
  if ((65 <=? n) && (n <=? 90))%nat then ascii_of_nat (n + 32)
  else if ((192 <=? n) && (n <=? 222) && negb (n =? 215))%nat
       then ascii_of_nat (n + 32)
  else c.

Fixpoint toLowerCase (s : string) : string :=
  match s with
  | EmptyString => EmptyString
  | String c r => String (lower_unit c) (toLowerCase r)
  end.

(** The class [\s] on code units below 256: tab, line feed, vertical tab,
    form feed, carriage return, space and no-break space. *)
Definition is_space (c : ascii) : bool :=
  let n := nat_of_ascii c in
  ((9 <=? n) && (n <=? 13) || (n =? 32) || (n =? 160))%nat.

(** [/\s/.test(s)] *)
Fixpoint test_space (s : string) : bool :=
  match s with
  | EmptyString => false
  | String c r => is_space c || test_space r
  end.

(** [Array.prototype.includes] on an array of ids. *)
Definition includes (x : string) (l : list string) : bool :=
  existsb (String.eqb x) l.

(** [Array.prototype.push] *)
Definition push (l : list string) (x : string) : list string := l ++ [x].

End Js.

(** ** Status codes *)

(** Modelled from the spec: [HttpStatusCode] of lib/util.js, which is not
    among the sources.  The values are the ones the spec gives to the
    error kinds and to the replies of the endpoints. *)
Module HttpStatusCode.
Definition OK : nat := 200.
Definition CREATED : nat := 201.
Definition BAD_REQUEST : nat := 400.
Definition UNAUTHORIZED : nat := 401.
Definition NOT_FOUND : nat := 404.
Definition CONFLICT : nat := 409.
End HttpStatusCode.

(** ** Documents *)

Definition Id := string.

(** A document of the [User] collection, with the fields the controller
    reads and writes. *)
Record User := mkUser {
  _id : Id;
  name : string;
  username : string;
  password : string;
  email : string;
  profilePicture : string
}.

(** A document of the [Followers] or of the [Following] collection: the owner
    and the array of ids, which is the field [followers] in one collection
    and the field [following] in the other. *)
Record ListDoc := mkListDoc {
  userId : Id;
  ids : list Id
}.

(** A post, with the fields the client reads from it. *)
Record Post := mkPost {
  post_id : Id;
  post_author : Id;
  post_content : string
}.

Record Store := mkStore {
  Users : list User;
  Followers : list ListDoc;
  Following : list ListDoc
}.

(** [User.findById(id)] *)
Definition findById (id : Id) (us : list User) : option User :=
  find (fun u => _id u =? id) us.

(** [User.findOne({ username })] *)
Definition findByUsername (n : string) (us : list User) : option User :=
  find (fun u => username u =? n) us.

(** [User.findOne({ $or: [{ username }, { email }] })] *)
Definition findByUsernameOrEmail (n e : string) (us : list User) : option User :=
  find (fun u => (username u =? n) || (email u =? e)) us.

(** [Followers.findOne({ userId })] and [Following.findOne({ userId })] *)
Definition findOne (uid : Id) (ds : list ListDoc) : option ListDoc :=
  find (fun d => userId d =? uid) ds.

(** [doc.save()] for a list document: the document read by [findOne] is
    replaced in place, a document that is not in the collection is added. *)
Fixpoint save (d : ListDoc) (ds : list ListDoc) : list ListDoc :=
  match ds with
  | [] => [d]
  | d' :: r => if userId d' =? userId d then d :: r else d' :: save d r
  end.

(** [user.save()] for a user read by [findById]. *)
Fixpoint saveUser (u : User) (us : list User) : list User :=
  match us with
  | [] => [u]
  | u' :: r => if _id u' =? _id u then u :: r else u' :: saveUser u r
  end.

(** ** Replies *)

(** What the handlers throw. *)
Inductive Error :=
| CustomError (status : nat) (message : string)
| ReferenceError (message : string)
| JwtError (message : string).

(** A user document after [const { password: _, __v, ...response }]. *)
Record Sanitized := mkSanitized {
  s_id : Id;
  s_name : string;
  s_username : string;
  s_email : string;
  s_profilePicture : string
}.

Definition sanitize (u : User) : Sanitized :=
  {| s_id := _id u; s_name := name u; s_username := username u;
     s_email := email u; s_profilePicture := profilePicture u |}.

(** The payload the token is signed over: [{ user: { id, username } }]. *)
Record Payload := mkPayload {
  p_id : Id;
  p_username : string
}.

(** A signed token, as the three arguments [jwt.sign] received. *)
Record Token := mkToken {
  tok_payload : Payload;
  tok_key : string;
  tok_expiresIn : string
}.

Inductive Body :=
| BUser (u : Sanitized)
| BUserToken (u : Sanitized) (token : Token)
| BMessage (message : string)
| BErrorMessage (message : string)
| BProfile (u : Sanitized) (following followers : list Id) (posts : list Post)
| BUsers (us : list Sanitized).

(** How a handler ends: [res.status(n).json(body)], [next(error)], or an
    error thrown from a callback, outside the handler's [try]. *)
Inductive Reply :=
| Json (status : nat) (body : Body)
| Next (error : Error)
| Uncaught (error : Error).

(** ** Requests *)

(** [req.body] of the register, login and update requests. *)
Record ReqBody := mkReqBody {
  b_name : option string;
  b_username : option string;
  b_password : option string;
  b_email : option string
}.

(** [req.query] of the find request. *)
Record Query := mkQuery {
  q_userId : option string;
  q_username : option string
}.

(** The string a value is once it was tested truthy. *)
Definition str (x : option string) : string :=
  match x with
  | Some s => s
  | None => ""
  end.

(** ** Library calls with a fixed behaviour *)

(** [jwt.sign(payload, secret, { expiresIn }, callback)]: the callback gets
    an error when the secret is missing or empty, and the token otherwise. *)
Definition jwt_sign (payload : Payload) (secret : option string)
    (expiresIn : string) : Error + Token :=
  if Js.truthy secret
  then inr {| tok_payload := payload; tok_key := str secret;
              tok_expiresIn := expiresIn |}
  else inl (JwtError "secretOrPrivateKey must have a value").

(** The value of a decimal digit. *)
Definition digit (c : ascii) : option N :=
  let n := N_of_ascii c in
  if ((48 <=? n) && (n <=? 57))%N then Some (n - 48)%N else None.

(** The seconds in one unit of a time span. *)
Definition unit_seconds (u : string) : option N :=
  if u =? "s" then Some 1%N
  else if u =? "m" then Some 60%N
  else if u =? "h" then Some 3600%N
  else if u =? "d" then Some 86400%N
  else None.

(** A time span written as digits and a unit ("300h"), in seconds, read
    the way jsonwebtoken reads [expiresIn]; [acc] is the number read so far
    and [seen] tells whether a digit was read. *)
Fixpoint span_from (acc : N) (seen : bool) (s : string) : option N :=
  match s with
  | EmptyString => None
  | String c r =>
      match digit c with
      | Some d => span_from (10 * acc + d)%N true r
      | None => if seen
                then option_map (fun k => (acc * k)%N) (unit_seconds s)
                else None
      end
  end.

Definition span_seconds (s : string) : option N := span_from 0%N false s.

(** ** Stand-ins for the parameters, to run the handlers on requests *)

Module Sample.

Definition gravatar (email : string) : string :=
  "https://www.gravatar.com/avatar/" ++ email.

(** A hash in the layout of bcrypt: version and cost, salt, digest. *)
Definition hash (salt plain : string) : string :=
  "$2a$10$" ++ salt ++ "." ++ plain.

Fixpoint ends_with (suffix s : string) : bool :=
  (s =? suffix) ||
  match s with
  | EmptyString => false
  | String _ r => ends_with suffix r
  end.

Definition compare (plain hashed : string) : bool :=
  prefix "$2a$10$" hashed && ends_with ("." ++ plain) hashed.

Fixpoint contains (pat s : string) : bool :=
  prefix pat s ||
  match s with
  | EmptyString => false
  | String _ r => contains pat r
  end.

(** A pattern without metacharacters matches where it occurs, whatever
    the case. *)
Definition regex_test (pat s : string) : bool :=
  contains (Js.toLowerCase pat) (Js.toLowerCase s).

Definition posts (u : User) : list Post := [].

Definition jon : User :=
  {| _id := "65f1a0000000000000000001"; name := "Jon"; username := "jon";
     password := hash "nacl" "pw123"; email := "jon@x.com";
     profilePicture := gravatar "jon@x.com" |}.

Definition amy : User :=
  {| _id := "65f1a0000000000000000002"; name := "Amy"; username := "amy";
     password := hash "salt" "secret"; email := "amy@x.com";
     profilePicture := gravatar "amy@x.com" |}.

(** Two registered users, nobody follows anybody. *)
Definition store : Store :=
  {| Users := [jon; amy];
     Followers := [ {| userId := _id jon; ids := [] |};
                    {| userId := _id amy; ids := [] |} ];
     Following := [ {| userId := _id jon; ids := [] |};
                    {| userId := _id amy; ids := [] |} ] |}.

(** The same users without their list documents. *)
Definition bare : Store :=
  {| Users := [jon; amy]; Followers := []; Following := [] |}.


(** An id no user has. *)
Definition nobody : Id := "65f1a00000000000000000ff".

(** The secret the tokens are signed with. *)
Definition key : option string := Some "k3y".

(** A registration nobody made yet. *)
Definition newcomer : ReqBody :=
  {| b_name := Some "Bob"; b_username := Some "bob";
     b_password := Some "hunter2"; b_email := Some "bob@x.com" |}.

(** A registration under a username that is taken. *)
Definition taken : ReqBody :=
  {| b_name := Some "Jon Two"; b_username := Some "jon";
     b_password := Some "pw456"; b_email := Some "jon2@x.com" |}.

(** A registration under the email of [jon] and his username in another
    case. *)
Definition shouting : ReqBody :=
  {| b_name := Some "Jon"; b_username := Some "Jon";
     b_password := Some "pw123"; b_email := Some "jon@x.com" |}.

(** The login of [jon]. *)
Definition login_jon : ReqBody :=
  {| b_name := None; b_username := Some "jon";
     b_password := Some "pw123"; b_email := None |}.

(** An update of the name only. *)
Definition rename : ReqBody :=
  {| b_name := Some "Jonathan"; b_username := None;
     b_password := None; b_email := None |}.

End Sample.

(** ** The handlers *)

Section Controller.

(** [getGravatar] of lib/util.js: the avatar reference of an email. *)
Variable getGravatar : string -> string.

(** [bcrypt.hash], with the salt it draws as its first argument, and
    [bcrypt.compare]. *)
Variable bcrypt_hash : string -> string -> string.
Variable bcrypt_compare : string -> string -> bool.

(** [{ $regex: pattern, $options: "i" }] on one string. *)
Variable regex_test : string -> string -> bool.

(** [user.getPosts()] *)
Variable getPosts : User -> list Post.

(** Modelled from the spec: the save of a new [User] document, which
    models/User.js (not among the sources) defines.  The spec says that
    registration "stores password as a salted hash (never plaintext)";
    [salt] is the salt drawn for this save. *)
Definition User_save (salt : string) (u : User) : User :=
  {| _id := _id u; name := name u; username := username u;
     password := bcrypt_hash salt (password u); email := email u;
     profilePicture := profilePicture u |}.

(** Modelled from the spec: a list document made with only its [userId]
    is empty ("creates the User plus empty FollowerList/FollowingList"). *)
Definition new_list (uid : Id) : ListDoc := {| userId := uid; ids := [] |}.

(** [registerUser]; [oid] is the id the new document gets. *)
Definition registerUser (oid : Id) (salt : string) (body : ReqBody)
    (s : Store) : Store * Reply :=
  if negb (Js.truthy (b_name body)) || negb (Js.truthy (b_username body))
     || negb (Js.truthy (b_password body)) || negb (Js.truthy (b_email body))
  then (s, Next (CustomError HttpStatusCode.BAD_REQUEST
                   "Fields are required (name, username, password, email)"))
  else
    let username := str (b_username body) in
    let email := str (b_email body) in
    if negb (username =? Js.toLowerCase username) || Js.test_space username
    then (s, Next (CustomError HttpStatusCode.BAD_REQUEST
                     "Username must be lowercase and cannot contain spaces"))
    else
      match findByUsernameOrEmail username email (Users s) with
      | Some _ =>
          (s, Next (CustomError HttpStatusCode.CONFLICT
                      "Username or email already exists"))
      | None =>
          let newUser :=
            {| _id := oid; name := str (b_name body); username := username;
               password := str (b_password body); email := email;
               profilePicture := getGravatar email |} in
          let savedUser := User_save salt newUser in
          ({| Users := Users s ++ [savedUser];
              Followers := Followers s ++ [new_list (_id savedUser)];
              Following := Following s ++ [new_list (_id savedUser)] |},
           Json HttpStatusCode.CREATED (BUser (sanitize savedUser)))
      end.

(** [loginUser]; [secret] is [process.env.JWT_SECRET]. *)
Definition loginUser (secret : option string) (body : ReqBody)
    (s : Store) : Reply :=
  match findByUsername (str (b_username body)) (Users s) with
  | None => Next (CustomError HttpStatusCode.NOT_FOUND "User not found")
  | Some user =>
      if negb (bcrypt_compare (str (b_password body)) (password user))
      then Next (CustomError HttpStatusCode.UNAUTHORIZED "Invalid credentials")
      else
        let response := sanitize user in
        let payload := {| p_id := _id user; p_username := username user |} in
        match jwt_sign payload secret "300h" with
        | inl err => Uncaught err
        | inr token => Json HttpStatusCode.OK (BUserToken response token)
        end
  end.

(** The request values that have a name where [updateUser] tests them:
    the three fields taken out of [req.body]. *)
Definition updateUser_bindings (body : ReqBody)
    : list (string * option string) :=
  [("name", b_name body); ("username", b_username body);
   ("email", b_email body)].

(** Reading an identifier: [None] when nothing binds it. *)
Definition resolve (x : string) (env : list (string * option string))
    : option (option string) :=
  option_map snd (find (fun b => fst b =? x) env).

(** [updateUser]; [actor] is [req.user._id], [file] is the path of
    [req.file] when the request carries a file, [salt] is the salt
    [bcrypt.hash] would draw. *)
Definition updateUser (salt : string) (actor : Id) (file : option string)
    (body : ReqBody) (s : Store) : Store * Reply :=
  match findById actor (Users s) with
  | None => (s, Next (CustomError HttpStatusCode.NOT_FOUND "User not found"))
  | Some user =>
      let pic := match file with
                 | Some path => path
                 | None => profilePicture user
                 end in
      let nm := if Js.truthy (b_name body) then str (b_name body)
                else name user in
      let un := if Js.truthy (b_username body) then str (b_username body)
                else username user in
      let em := if Js.truthy (b_email body) then str (b_email body)
                else email user in
      match resolve "password" (updateUser_bindings body) with
      | None => (s, Next (ReferenceError "password is not defined"))
      | Some pw =>
          let pwd := if Js.truthy pw then bcrypt_hash salt (str pw)
                     else password user in
          let user' := {| _id := _id user; name := nm; username := un;
                          password := pwd; email := em;
                          profilePicture := pic |} in
          ({| Users := saveUser user' (Users s);
              Followers := Followers s; Following := Following s |},
           Json HttpStatusCode.OK (BUser (sanitize user')))
      end
  end.

(** [findUsers]; [caller] is [req.user._id]. *)
Definition findUsers (caller : Id) (q : Query) (s : Store) : Reply :=
  if Js.truthy (q_userId q) then
    let uid := str (q_userId q) in
    match findById uid (Users s) with
    | None => Json HttpStatusCode.NOT_FOUND (BMessage "User not found")
    | Some user =>
        let followerList := findOne uid (Followers s) in
        let followingList := findOne uid (Following s) in
        Json HttpStatusCode.OK
          (BProfile (sanitize user)
             (match followingList with Some d => ids d | None => [] end)
             (match followerList with Some d => ids d | None => [] end)
             (getPosts user))
    end
  else if Js.truthy (q_username q) then
    let users :=
      filter (fun u => regex_test (str (q_username q)) (username u)
                       && negb (_id u =? caller)) (Users s) in
    if (length users =? 0)%nat
    then Json HttpStatusCode.NOT_FOUND (BMessage "No users found")
    else Json HttpStatusCode.OK (BUsers (map sanitize users))
  else
    let allUsers := filter (fun u => negb (_id u =? caller)) (Users s) in
    Json HttpStatusCode.OK (BUsers (map sanitize allUsers)).

End Controller.

(** [followUser]; [actor] is [req.user._id.toString()] and [target] is
    [req.params.userId]. *)
Definition followUser (actor target : Id) (s : Store) : Store * Reply :=
  if actor =? target
  then (s, Json HttpStatusCode.BAD_REQUEST
             (BErrorMessage "You cannot follow yourself."))
  else
    match findById target (Users s) with
    | None => (s, Next (CustomError HttpStatusCode.NOT_FOUND "User not found"))
    | Some userToFollow =>
        let followerList :=
          match findOne target (Followers s) with
          | Some d => d
          | None => {| userId := target; ids := [] |}
          end in
        let followingList :=
          match findOne actor (Following s) with
          | Some d => d
          | None => {| userId := actor; ids := [] |}
          end in
        let isFollowing := Js.includes target (ids followingList) in
        let following' :=
          if isFollowing
          then filter (fun id => negb (id =? target)) (ids followingList)
          else Js.push (ids followingList) target in
        let followers' :=
          if isFollowing
          then filter (fun id => negb (id =? actor)) (ids followerList)
          else Js.push (ids followerList) actor in
        ({| Users := Users s;
            Followers :=
              save {| userId := userId followerList; ids := followers' |}
                   (Followers s);
            Following :=
              save {| userId := userId followingList; ids := following' |}
                   (Following s) |},
         Json HttpStatusCode.OK
           (BMessage (if isFollowing then "User unfollowed successfully"
                      else "User followed successfully")))
    end.

(** The ids [uid] follows, and the ids that follow [uid]: the array of the
    list document, empty while there is none. *)
Definition following_of (uid : Id) (s : Store) : list Id :=
  match findOne uid (Following s) with
  | Some d => ids d
  | None => []
  end.

Definition followers_of (uid : Id) (s : Store) : list Id :=
  match findOne uid (Followers s) with
  | Some d => ids d
  | None => []
  end.

(** The two list collections agree: [b] is in the following list of [a]
    exactly when [a] is in the follower list of [b]. *)
Definition consistent (s : Store) : Prop :=
  forall a b : Id, In b (following_of a s) <-> In a (followers_of b s).

(** A sequence of follow requests, each by an actor on a target, served one
    after the other; a request that fails leaves the store as it was. *)
Fixpoint follow_all (reqs : list (Id * Id)) (s : Store) : Store :=
  match reqs with
  | [] => s
  | (actor, target) :: r => follow_all r (fst (followUser actor target s))
  end.

(** ** Conditions on requests and stores *)

(** The two lists a follow request that passed both checks writes. *)
Definition toggled_following (actor target : Id) (s : Store) : list Id :=
  if Js.includes target (following_of actor s)
  then filter (fun id => negb (id =? target)) (following_of actor s)
  else Js.push (following_of actor s) target.

Definition toggled_followers (actor target : Id) (s : Store) : list Id :=
  if Js.includes target (following_of actor s)
  then filter (fun id => negb (id =? actor)) (followers_of target s)
  else Js.push (followers_of target s) actor.

(** The four fields of a registration are there and not empty. *)
Definition fields_present (body : ReqBody) : Prop :=
  Js.truthy (b_name body) = true /\ Js.truthy (b_username body) = true /\
  Js.truthy (b_password body) = true /\ Js.truthy (b_email body) = true.

(** The username is its own lower case and has no white space. *)
Definition username_ok (body : ReqBody) : Prop :=
  str (b_username body) = Js.toLowerCase (str (b_username body)) /\
  Js.test_space (str (b_username body)) = false.

(** No stored user has the username or the email of the request. *)
Definition fresh (body : ReqBody) (s : Store) : Prop :=
  forall u, In u (Users s) ->
    username u <> str (b_username body) /\ email u <> str (b_email body).

(** A hash is never the text it was made from. *)
Definition never_plaintext (hash : string -> string -> string) : Prop :=
  forall salt plain, hash salt plain <> plain.

(** ** Requests served one after the other *)

(** A request that writes to the store: a registration, with the id and the
    salt drawn for it, or a follow request. *)
Inductive Request :=
| Register (oid : Id) (salt : string) (body : ReqBody)
| Follow (actor target : Id).

(** The store after one request, whatever the reply. *)
Definition serve (getGravatar : string -> string)
    (bcrypt_hash : string -> string -> string) (r : Request) (s : Store)
    : Store :=
  match r with
  | Register oid salt body =>
      fst (registerUser getGravatar bcrypt_hash oid salt body s)
  | Follow actor target => fst (followUser actor target s)
  end.

Fixpoint serve_all (getGravatar : string -> string)
    (bcrypt_hash : string -> string -> string) (rs : list Request)
    (s : Store) : Store :=
  match rs with
  | [] => s
  | r :: rest =>
      serve_all getGravatar bcrypt_hash rest
        (serve getGravatar bcrypt_hash r s)
  end.

(** No username and no email is stored twice. *)
Definition unique_accounts (s : Store) : Prop :=
  NoDup (map username (Users s)) /\ NoDup (map email (Users s)).



(** Every id in a following list is the id of a stored user. *)
Definition following_known (s : Store) : Prop :=
  forall a b : Id, In b (following_of a s) ->
    exists u, findById b (Users s) = Some u.

(** No user owns two documents of a list collection. *)
Definition one_list_each (ds : list ListDoc) : Prop :=
  NoDup (map userId ds).

(** The user document a registration that passes its checks stores. *)
Definition account (getGravatar : string -> string)
    (bcrypt_hash : string -> string -> string) (oid : Id) (salt : string)
    (body : ReqBody) : User :=
  User_save bcrypt_hash salt
    {| _id := oid; name := str (b_name body);
       username := str (b_username body);
       password := str (b_password body);
       email := str (b_email body);
       profilePicture := getGravatar (str (b_email body)) |}.

(** The store after that registration. *)
Definition enrolled (getGravatar : string -> string)
    (bcrypt_hash : string -> string -> string) (oid : Id) (salt : string)
    (body : ReqBody) (s : Store) : Store :=
  {| Users := Users s ++ [account getGravatar bcrypt_hash oid salt body];
     Followers := Followers s ++ [{| userId := oid; ids := [] |}];
     Following := Following s ++ [{| userId := oid; ids := [] |}] |}.

(** The login request of the account a registration opens. *)
Definition credentials (body : ReqBody) : ReqBody :=
  {| b_name := None; b_username := b_username body;
     b_password := b_password body; b_email := None |}.

(** A run of requests on the sample store: registrations that pass and
    that fail, follow requests that are answered with 200, 400 and 404. *)
Definition sample_requests : list Request :=
  [Register Sample.nobody "pepper" Sample.newcomer;
   Follow (_id Sample.jon) (_id Sample.amy);
   Follow Sample.nobody (_id Sample.jon);
   Register "65f1a00000000000000000fe" "salt" Sample.taken;
   Follow (_id Sample.amy) (_id Sample.jon);
   Follow (_id Sample.jon) (_id Sample.amy);
   Follow (_id Sample.jon) (_id Sample.jon);
   Follow (_id Sample.amy) "65f1a00000000000000000fd"].

(** A second registration under the email of [Sample.newcomer]. *)
Definition newcomer_again : ReqBody :=
  {| b_name := Some "Bobby"; b_username := Some "bobby";
     b_password := Some "hunter3"; b_email := Some "bob@x.com" |}.

(** The sample store after [Sample.jon] followed [Sample.amy]. *)
Definition sample_followed : Store :=
  fst (followUser (_id Sample.jon) (_id Sample.amy) Sample.store).

(** ** Lists and collections *)



Lemma In_without (x y : Id) (l : list Id) :
  In x (filter (fun id => negb (id =? y)) l) <-> In x l /\ x <> y.
Proof.
  rewrite filter_In, negb_true_iff, String.eqb_neq. tauto.
Qed.

Lemma In_push (x y : Id) (l : list Id) : In x (Js.push l y) <-> In x l \/ x = y.
Proof.
  unfold Js.push. rewrite in_app_iff. simpl. intuition congruence.
Qed.



Lemma findOne_userId (uid : Id) (ds : list ListDoc) (d : ListDoc) :
  findOne uid ds = Some d -> userId d = uid.
Proof.
  unfold findOne. intros H. apply find_some in H.
  now apply String.eqb_eq.
Qed.

Lemma findOne_save_same (d : ListDoc) (ds : list ListDoc) :
  findOne (userId d) (save d ds) = Some d.
Proof.
  unfold findOne. induction ds as [|d' r IH]; simpl.
  - now rewrite String.eqb_refl.
  - destruct (String.eqb_spec (userId d') (userId d)) as [E|E]; simpl.
    + now rewrite String.eqb_refl.
    + apply String.eqb_neq in E. now rewrite E.
Qed.

Lemma findOne_save_other (uid : Id) (d : ListDoc) (ds : list ListDoc) :
  uid <> userId d -> findOne uid (save d ds) = findOne uid ds.
Proof.
  unfold findOne. intros Hne. induction ds as [|d' r IH]; simpl.
  - destruct (String.eqb_spec (userId d) uid); [congruence | reflexivity].
  - destruct (String.eqb_spec (userId d') (userId d)) as [E|E]; simpl.
    + rewrite E.
      destruct (String.eqb_spec (userId d) uid); [congruence | reflexivity].
    + destruct (userId d' =? uid); [reflexivity | exact IH].
Qed.

(** The owner of the list a follow request reads or makes. *)
Lemma loaded_userId (uid : Id) (ds : list ListDoc) :
  userId (match findOne uid ds with
          | Some d => d
          | None => {| userId := uid; ids := [] |}
          end) = uid.
Proof.
  destruct (findOne uid ds) as [d|] eqn:E; [|reflexivity].
  now apply findOne_userId in E.
Qed.

Lemma loaded_ids_following (uid : Id) (s : Store) :
  ids (match findOne uid (Following s) with
       | Some d => d
       | None => {| userId := uid; ids := [] |}
       end) = following_of uid s.
Proof. unfold following_of. now destruct (findOne uid (Following s)). Qed.

Lemma loaded_ids_followers (uid : Id) (s : Store) :
  ids (match findOne uid (Followers s) with
       | Some d => d
       | None => {| userId := uid; ids := [] |}
       end) = followers_of uid s.
Proof. unfold followers_of. now destruct (findOne uid (Followers s)). Qed.

(** ** What a follow request does to the two lists *)

Lemma followUser_self (a : Id) (s : Store) :
  followUser a a s =
  (s, Json HttpStatusCode.BAD_REQUEST
        (BErrorMessage "You cannot follow yourself.")).
Proof. unfold followUser. now rewrite String.eqb_refl. Qed.

Lemma followUser_absent (a b : Id) (s : Store) :
  a <> b -> findById b (Users s) = None ->
  followUser a b s =
  (s, Next (CustomError HttpStatusCode.NOT_FOUND "User not found")).
Proof.
  intros Hab Hb. unfold followUser.
  apply String.eqb_neq in Hab. now rewrite Hab, Hb.
Qed.

Lemma followUser_present (a b : Id) (s : Store) (u : User) :
  a <> b -> findById b (Users s) = Some u ->
  followUser a b s =
  ({| Users := Users s;
      Followers := save {| userId := b; ids := toggled_followers a b s |}
                        (Followers s);
      Following := save {| userId := a; ids := toggled_following a b s |}
                        (Following s) |},
   Json HttpStatusCode.OK
     (BMessage (if Js.includes b (following_of a s)
                then "User unfollowed successfully"
                else "User followed successfully"))).
Proof.
  intros Hab Hb. unfold followUser.
  apply String.eqb_neq in Hab. rewrite Hab, Hb.
  rewrite !loaded_userId, loaded_ids_following, loaded_ids_followers.
  reflexivity.
Qed.

(** A follow request that is answered with 200 passed both checks. *)
Lemma followUser_ok_inv (a b : Id) (s s' : Store) (body : Body) :
  followUser a b s = (s', Json HttpStatusCode.OK body) ->
  a <> b /\ exists u, findById b (Users s) = Some u.
Proof.
  intros H. destruct (String.eqb_spec a b) as [->|Hab].
  - rewrite followUser_self in H. discriminate.
  - split; [assumption|].
    destruct (findById b (Users s)) as [u|] eqn:E; [now exists u|].
    rewrite (followUser_absent a b s Hab E) in H. discriminate.
Qed.

Section AfterFollow.

Variables (a b : Id) (s : Store) (u : User).
Hypothesis Hab : a <> b.
Hypothesis Hb : findById b (Users s) = Some u.

Let s' := fst (followUser a b s).

Lemma following_after_same : following_of a s' = toggled_following a b s.
Proof.
  unfold s'. rewrite (followUser_present a b s u Hab Hb). simpl.
  unfold following_of at 1. simpl.
  now rewrite (findOne_save_same {| userId := a; ids := _ |}).
Qed.

Lemma following_after_other (x : Id) :
  x <> a -> following_of x s' = following_of x s.
Proof.
  intros Hx. unfold s'. rewrite (followUser_present a b s u Hab Hb). simpl.
  unfold following_of. simpl.
  now rewrite findOne_save_other by (simpl; assumption).
Qed.

Lemma followers_after_same : followers_of b s' = toggled_followers a b s.
Proof.
  unfold s'. rewrite (followUser_present a b s u Hab Hb). simpl.
  unfold followers_of at 1. simpl.
  now rewrite (findOne_save_same {| userId := b; ids := _ |}).
Qed.

Lemma followers_after_other (x : Id) :
  x <> b -> followers_of x s' = followers_of x s.
Proof.
  intros Hx. unfold s'. rewrite (followUser_present a b s u Hab Hb). simpl.
  unfold followers_of. simpl.
  now rewrite findOne_save_other by (simpl; assumption).
Qed.

Lemma users_after : Users s' = Users s.
Proof.
  unfold s'. now rewrite (followUser_present a b s u Hab Hb).
Qed.

(** After the request the pair agrees, whatever the lists held before. *)
Lemma pair_agrees_after :
  In b (following_of a s') <-> In a (followers_of b s').
Proof.
  rewrite following_after_same, followers_after_same.
  unfold toggled_following, toggled_followers.
  destruct (Js.includes b (following_of a s)).
  - rewrite !In_without. tauto.
  - rewrite !In_push. tauto.
Qed.

(** The request keeps the two collections in agreement. *)
Lemma consistent_after : consistent s -> consistent s'.
Proof.
  intros Hs x y.
  destruct (String.eqb_spec x a) as [->|Hxa];
    destruct (String.eqb_spec y b) as [->|Hyb].
  - apply pair_agrees_after.
  - rewrite following_after_same, (followers_after_other y Hyb).
    unfold toggled_following.
    destruct (Js.includes b (following_of a s)).
    + rewrite In_without. specialize (Hs a y). tauto.
    + rewrite In_push. specialize (Hs a y). tauto.
  - rewrite (following_after_other x Hxa), followers_after_same.
    unfold toggled_followers.
    destruct (Js.includes b (following_of a s)).
    + rewrite In_without. specialize (Hs x b). tauto.
    + rewrite In_push. specialize (Hs x b). tauto.
  - rewrite (following_after_other x Hxa), (followers_after_other y Hyb).
    apply Hs.
Qed.

End AfterFollow.

(** Every follow request, answered with 200 or not, keeps the agreement. *)
Lemma followUser_consistent (a b : Id) (s : Store) :
  consistent s -> consistent (fst (followUser a b s)).
Proof.
  intros Hs. destruct (String.eqb_spec a b) as [->|Hab].
  - now rewrite followUser_self.
  - destruct (findById b (Users s)) as [u|] eqn:E.
    + now apply (consistent_after a b s u).
    + now rewrite (followUser_absent a b s Hab E).
Qed.

Lemma follow_all_consistent (reqs : list (Id * Id)) :
  forall s, consistent s -> consistent (follow_all reqs s).
Proof.
  induction reqs as [|[a b] r IH]; simpl; intros s Hs; [assumption|].
  apply IH. now apply followUser_consistent.
Qed.

(** A store whose list documents are all empty is in agreement. *)
Lemma empty_lists_consistent (s : Store) :
  (forall d, In d (Following s) -> ids d = []) ->
  (forall d, In d (Followers s) -> ids d = []) ->
  consistent s.
Proof.
  intros Hg Hr a b. unfold following_of, followers_of.
  destruct (findOne a (Following s)) as [d|] eqn:Ea;
    destruct (findOne b (Followers s)) as [e|] eqn:Eb;
    try (apply find_some in Ea; destruct Ea as [Ea _]; rewrite (Hg d Ea));
    try (apply find_some in Eb; destruct Eb as [Eb _]; rewrite (Hr e Eb));
    simpl; tauto.
Qed.

(** ** The follow relation *)

(** C1. After a follow request answered with 200, the target is in the
    actor's following list exactly when the actor is in the target's
    follower list; and a store whose two list collections agree for every
    pair of users still agrees after any sequence of follow requests served
    one after the other. *)
Theorem follow_lists_agree (s : Store) :
  (forall (a b : Id) (s' : Store) (body : Body),
      followUser a b s = (s', Json HttpStatusCode.OK body) ->
      a <> b /\ (In b (following_of a s') <-> In a (followers_of b s'))) /\
  (forall reqs : list (Id * Id),
      consistent s -> consistent (follow_all reqs s)).
Proof.
  split.
  - intros a b s' body H.
    destruct (followUser_ok_inv a b s s' body H) as [Hab [u Hu]].
    split; [assumption|].
    replace s' with (fst (followUser a b s)) by now rewrite H.
    now apply (pair_agrees_after a b s u).
  - intros reqs Hs. now apply follow_all_consistent.
Qed.




(** ** Registration *)

Lemma fields_present_guard (body : ReqBody) :
  fields_present body ->
  negb (Js.truthy (b_name body)) || negb (Js.truthy (b_username body))
  || negb (Js.truthy (b_password body)) || negb (Js.truthy (b_email body))
  = false.
Proof. intros (-> & -> & -> & ->). reflexivity. Qed.

Lemma username_ok_guard (body : ReqBody) :
  username_ok body ->
  negb (str (b_username body) =? Js.toLowerCase (str (b_username body)))
  || Js.test_space (str (b_username body)) = false.
Proof.
  intros [Hl Hs]. rewrite Hs, <- Hl, String.eqb_refl. reflexivity.
Qed.

Lemma fresh_lookup (body : ReqBody) (s : Store) :
  fresh body s ->
  findByUsernameOrEmail (str (b_username body)) (str (b_email body)) (Users s)
  = None.
Proof.
  intros Hf. unfold findByUsernameOrEmail.
  destruct (find _ (Users s)) as [u|] eqn:E; [|reflexivity].
  apply find_some in E. destruct E as [Hin Hm].
  destruct (Hf u Hin) as [Hu He].
  apply String.eqb_neq in Hu, He. rewrite Hu, He in Hm. discriminate.
Qed.

Lemma taken_lookup (n e : string) (us : list User) (u : User) :
  In u us -> username u = n \/ email u = e ->
  exists v, findByUsernameOrEmail n e us = Some v.
Proof.
  intros Hin Hm. unfold findByUsernameOrEmail.
  destruct (find _ us) as [v|] eqn:E; [now exists v|].
  pose proof (find_none _ _ E u Hin) as Hn. simpl in Hn.
  apply orb_false_iff in Hn. destruct Hn as [Hu He].
  apply String.eqb_neq in Hu, He. tauto.
Qed.

(** The first user with a username, in a collection that grew by one. *)
Lemma findByUsername_new (n : string) (us : list User) (v : User) :
  (forall u, In u us -> username u <> n) -> username v = n ->
  findByUsername n (us ++ [v]) = Some v.
Proof.
  intros Hno Hv. unfold findByUsername.
  induction us as [|u r IH]; simpl.
  - rewrite Hv, String.eqb_refl. reflexivity.
  - assert (Hu : username u <> n) by (apply Hno; now left).
    apply String.eqb_neq in Hu. rewrite Hu. apply IH.
    intros w Hw. apply Hno. now right.
Qed.

(** C4. A registration with its four fields present and a username that is
    its own lower case and has no white space is answered with the 409
    conflict, the store unchanged, when a stored user has that username or
    that email; when the username has an upper-case letter or white space the
    request is answered with the 400 of the username check, whatever the
    store holds. *)
Theorem register_duplicate_conflict
    (getGravatar : string -> string) (bcrypt_hash : string -> string -> string)
    (oid salt : string) (body : ReqBody) (s : Store) :
  fields_present body ->
  (username_ok body ->
   (exists u, In u (Users s) /\
              (username u = str (b_username body) \/
               email u = str (b_email body))) ->
   registerUser getGravatar bcrypt_hash oid salt body s =
   (s, Next (CustomError 409 "Username or email already exists"))) /\
  (~ username_ok body ->
   registerUser getGravatar bcrypt_hash oid salt body s =
   (s, Next (CustomError 400
               "Username must be lowercase and cannot contain spaces"))).
Proof.
  intros Hp. split.
  - intros Hok [u [Hin Hm]]. unfold registerUser.
    rewrite (fields_present_guard body Hp), (username_ok_guard body Hok).
    destruct (taken_lookup _ _ _ u Hin Hm) as [v ->]. reflexivity.
  - intros Hbad. unfold registerUser.
    rewrite (fields_present_guard body Hp).
    destruct (negb (str (b_username body) =? Js.toLowerCase (str (b_username body)))
              || Js.test_space (str (b_username body))) eqn:E; [reflexivity|].
    exfalso. apply Hbad. apply orb_false_iff in E. destruct E as [E1 E2].
    apply negb_false_iff, String.eqb_eq in E1. now split.
Qed.

(** C5. A registration with its four fields present, a username that is its
    own lower case and has no white space, and a username and an email no
    stored user has, is answered with 201 and the new user without the
    password; the user is stored with the avatar of the email and an empty
    list document in each list collection, and the password stored for it is
    the salted hash of the submitted one, which is not the submitted one. *)
Theorem register_stores_hash
    (getGravatar : string -> string) (bcrypt_hash : string -> string -> string)
    (oid salt : string) (body : ReqBody) (s : Store) :
  never_plaintext bcrypt_hash ->
  fields_present body -> username_ok body -> fresh body s ->
  exists saved : User,
    registerUser getGravatar bcrypt_hash oid salt body s =
      ({| Users := Users s ++ [saved];
          Followers := Followers s ++ [{| userId := oid; ids := [] |}];
          Following := Following s ++ [{| userId := oid; ids := [] |}] |},
       Json 201 (BUser (sanitize saved))) /\
    findByUsername (str (b_username body)) (Users s ++ [saved]) = Some saved /\
    _id saved = oid /\
    name saved = str (b_name body) /\
    username saved = str (b_username body) /\
    email saved = str (b_email body) /\
    profilePicture saved = getGravatar (str (b_email body)) /\
    password saved = bcrypt_hash salt (str (b_password body)) /\
    password saved <> str (b_password body).
Proof.
  intros Hh Hp Hok Hf.
  exists (User_save bcrypt_hash salt
            {| _id := oid; name := str (b_name body);
               username := str (b_username body);
               password := str (b_password body);
               email := str (b_email body);
               profilePicture := getGravatar (str (b_email body)) |}).
  repeat split; try reflexivity.
  - unfold registerUser.
    rewrite (fields_present_guard body Hp), (username_ok_guard body Hok).
    now rewrite (fresh_lookup body s Hf).
  - apply findByUsername_new; [|reflexivity].
    intros u Hu. now apply Hf.
  - simpl. apply Hh.
Qed.

(** ** Login *)

(** With a stored user, its password and a secret, the login is answered
    with 200 and a token. *)
Lemma loginUser_succeeds
    (bcrypt_compare : string -> string -> bool) (secret : option string)
    (body : ReqBody) (s : Store) (u : User) :
  findByUsername (str (b_username body)) (Users s) = Some u ->
  bcrypt_compare (str (b_password body)) (password u) = true ->
  Js.truthy secret = true ->
  loginUser bcrypt_compare secret body s =
  Json 200
    (BUserToken (sanitize u)
       {| tok_payload := {| p_id := _id u; p_username := username u |};
          tok_key := str secret; tok_expiresIn := "300h" |}).
Proof.
  intros Hu Hc Hs. unfold loginUser, jwt_sign. now rewrite Hu, Hc, Hs.
Qed.

(** C8. Every login answered with a status and a body is answered with 200,
    the user found under the submitted username, whose password matched,
    without its password, and a token signed with the secret over the
    payload that holds the id and the username of that user, with the expiry
    "300h", which is 1080000 seconds, 300 hours. *)
Theorem login_token
    (bcrypt_compare : string -> string -> bool) (secret : option string)
    (body : ReqBody) (s : Store) (status : nat) (reply : Body) :
  loginUser bcrypt_compare secret body s = Json status reply ->
  status = 200 /\
  exists (u : User) (tok : Token),
    reply = BUserToken (sanitize u) tok /\
    findByUsername (str (b_username body)) (Users s) = Some u /\
    bcrypt_compare (str (b_password body)) (password u) = true /\
    tok_payload tok = {| p_id := _id u; p_username := username u |} /\
    secret = Some (tok_key tok) /\
    tok_expiresIn tok = "300h" /\
    span_seconds (tok_expiresIn tok) = Some (300 * 3600)%N.
Proof.
  unfold loginUser. intros H.
  destruct (findByUsername (str (b_username body)) (Users s)) as [u|] eqn:Eu;
    [|discriminate].
  destruct (bcrypt_compare (str (b_password body)) (password u)) eqn:Ec;
    simpl in H; [|discriminate].
  unfold jwt_sign in H.
  destruct secret as [k|]; simpl in H; [|discriminate].
  destruct (k =? "") eqn:Ek; simpl in H; [discriminate|].
  injection H as <- <-. split; [reflexivity|].
  exists u. eexists. repeat split; try reflexivity; assumption.
Qed.

(** ** Finding users *)


(** C10. The lookup by id of a stored user is answered with 200, the user
    without its password, its posts, and the arrays of its two list
    documents, where the array of a list document that does not exist is
    the empty array. *)
Theorem find_by_id_without_lists
    (regex_test : string -> string -> bool) (getPosts : User -> list Post)
    (caller : Id) (q : Query) (s : Store) (u : User) :
  Js.truthy (q_userId q) = true ->
  findById (str (q_userId q)) (Users s) = Some u ->
  exists following followers : list Id,
    findUsers regex_test getPosts caller q s =
      Json 200 (BProfile (sanitize u) following followers (getPosts u)) /\
    (findOne (str (q_userId q)) (Following s) = None -> following = []) /\
    (findOne (str (q_userId q)) (Followers s) = None -> followers = []) /\
    (forall d, findOne (str (q_userId q)) (Following s) = Some d ->
               following = ids d) /\
    (forall d, findOne (str (q_userId q)) (Followers s) = Some d ->
               followers = ids d).
Proof.
  intros Hq Hu. unfold findUsers. rewrite Hq, Hu.
  eexists _, _. split; [reflexivity|].
  destruct (findOne (str (q_userId q)) (Following s));
    destruct (findOne (str (q_userId q)) (Followers s));
    repeat split; intros; congruence.
Qed.

(** ** Updating a profile *)

(** Nothing binds [password] where [updateUser] reads it. *)
Lemma password_unbound (body : ReqBody) :
  resolve "password" (updateUser_bindings body) = None.
Proof. reflexivity. Qed.

(** An update never reaches its save: it ends with the 404 or with the
    reference error, and the store is as before. *)
Lemma updateUser_never_saves
    (bcrypt_hash : string -> string -> string) (salt : string) (actor : Id)
    (file : option string) (body : ReqBody) (s : Store) :
  updateUser bcrypt_hash salt actor file body s =
  (s, match findById actor (Users s) with
      | None => Next (CustomError 404 "User not found")
      | Some _ => Next (ReferenceError "password is not defined")
      end).
Proof.
  unfold updateUser. rewrite password_unbound.
  now destruct (findById actor (Users s)).
Qed.

(** ** The theorems on the sample store *)

Lemma length_append (s1 s2 : string) :
  String.length (s1 ++ s2) = String.length s1 + String.length s2.
Proof. induction s1 as [|c r IH]; simpl; [reflexivity | now rewrite IH]. Qed.

(** The sample hash is longer than the text it was made from. *)
Lemma sample_hash_never_plaintext : never_plaintext Sample.hash.
Proof.
  intros salt plain H. apply (f_equal String.length) in H.
  unfold Sample.hash in H. rewrite !length_append in H. simpl in H. lia.
Qed.

Lemma sample_store_consistent : consistent Sample.store.
Proof.
  apply empty_lists_consistent; simpl;
    intros d [<-|[<-|[]]]; reflexivity.
Qed.

Lemma follow_lists_agree_witness :
  (_id Sample.jon <> _id Sample.amy /\
   (In (_id Sample.amy)
       (following_of (_id Sample.jon)
          (fst (followUser (_id Sample.jon) (_id Sample.amy) Sample.store)))
    <->
    In (_id Sample.jon)
       (followers_of (_id Sample.amy)
          (fst (followUser (_id Sample.jon) (_id Sample.amy) Sample.store)))))
  /\
  consistent
    (follow_all [(_id Sample.jon, _id Sample.amy);
                 (_id Sample.amy, _id Sample.jon);
                 (_id Sample.jon, _id Sample.jon);
                 (_id Sample.amy, Sample.nobody);
                 (_id Sample.jon, _id Sample.amy)] Sample.store).
Proof.
  split.
  - apply (proj1 (follow_lists_agree Sample.store)
             (_id Sample.jon) (_id Sample.amy) _
             (BMessage "User followed successfully")).
    reflexivity.
  - apply (proj2 (follow_lists_agree Sample.store)).
    exact sample_store_consistent.
Defined.



Lemma sample_taken_present : fields_present Sample.taken.
Proof. repeat split. Qed.

Lemma sample_shouting_present : fields_present Sample.shouting.
Proof. repeat split. Qed.

Lemma sample_shouting_not_ok : ~ username_ok Sample.shouting.
Proof. intros [H _]. discriminate H. Qed.

Lemma register_duplicate_conflict_witness :
  registerUser Sample.gravatar Sample.hash Sample.nobody "pepper"
    Sample.taken Sample.store =
  (Sample.store, Next (CustomError 409 "Username or email already exists")) /\
  registerUser Sample.gravatar Sample.hash Sample.nobody "pepper"
    Sample.shouting Sample.store =
  (Sample.store,
   Next (CustomError 400
           "Username must be lowercase and cannot contain spaces")).
Proof.
  split.
  - apply (proj1 (register_duplicate_conflict Sample.gravatar Sample.hash
                    Sample.nobody "pepper" Sample.taken Sample.store
                    sample_taken_present)).
    + split; reflexivity.
    + exists Sample.jon. split; [now left | now left].
  - apply (proj2 (register_duplicate_conflict Sample.gravatar Sample.hash
                    Sample.nobody "pepper" Sample.shouting Sample.store
                    sample_shouting_present)).
    exact sample_shouting_not_ok.
Defined.

(** The registration of the sample store that shows what C4 leaves out:
    the email is the one of a stored user and the username is his in another
    case, and the answer is the 400 of the username check, not the 409. *)
Lemma register_duplicate_other_case :
  In Sample.jon (Users Sample.store) /\
  email Sample.jon = str (b_email Sample.shouting) /\
  username Sample.jon = Js.toLowerCase (str (b_username Sample.shouting)) /\
  fields_present Sample.shouting /\
  registerUser Sample.gravatar Sample.hash Sample.nobody "pepper"
    Sample.shouting Sample.store =
  (Sample.store,
   Next (CustomError 400
           "Username must be lowercase and cannot contain spaces")) /\
  snd (registerUser Sample.gravatar Sample.hash Sample.nobody "pepper"
         Sample.shouting Sample.store) <>
  Next (CustomError 409 "Username or email already exists").
Proof.
  repeat split; try reflexivity.
  - now left.
  - simpl. discriminate.
Qed.

Lemma sample_newcomer_fresh : fresh Sample.newcomer Sample.store.
Proof.
  intros u [<-|[<-|[]]]; split; discriminate.
Qed.

Lemma register_stores_hash_witness :
  exists saved : User,
    registerUser Sample.gravatar Sample.hash Sample.nobody "pepper"
      Sample.newcomer Sample.store =
      ({| Users := Users Sample.store ++ [saved];
          Followers := Followers Sample.store
                       ++ [{| userId := Sample.nobody; ids := [] |}];
          Following := Following Sample.store
                       ++ [{| userId := Sample.nobody; ids := [] |}] |},
       Json 201 (BUser (sanitize saved))) /\
    findByUsername (str (b_username Sample.newcomer))
      (Users Sample.store ++ [saved]) = Some saved /\
    _id saved = Sample.nobody /\
    name saved = str (b_name Sample.newcomer) /\
    username saved = str (b_username Sample.newcomer) /\
    email saved = str (b_email Sample.newcomer) /\
    profilePicture saved = Sample.gravatar (str (b_email Sample.newcomer)) /\
    password saved = Sample.hash "pepper" (str (b_password Sample.newcomer)) /\
    password saved <> str (b_password Sample.newcomer).
Proof.
  apply (register_stores_hash Sample.gravatar Sample.hash Sample.nobody
           "pepper" Sample.newcomer Sample.store).
  - exact sample_hash_never_plaintext.
  - repeat split.
  - split; reflexivity.
  - exact sample_newcomer_fresh.
Defined.

Lemma login_token_witness :
  200 = 200 /\
  exists (u : User) (tok : Token),
    BUserToken (sanitize Sample.jon)
      {| tok_payload := {| p_id := _id Sample.jon;
                           p_username := username Sample.jon |};
         tok_key := "k3y"; tok_expiresIn := "300h" |}
    = BUserToken (sanitize u) tok /\
    findByUsername (str (b_username Sample.login_jon)) (Users Sample.store)
    = Some u /\
    Sample.compare (str (b_password Sample.login_jon)) (password u) = true /\
    tok_payload tok = {| p_id := _id u; p_username := username u |} /\
    Sample.key = Some (tok_key tok) /\
    tok_expiresIn tok = "300h" /\
    span_seconds (tok_expiresIn tok) = Some (300 * 3600)%N.
Proof.
  apply (login_token Sample.compare Sample.key Sample.login_jon Sample.store).
  reflexivity.
Defined.



Lemma find_by_id_without_lists_witness :
  exists following followers : list Id,
    findUsers Sample.regex_test Sample.posts (_id Sample.jon)
      {| q_userId := Some (_id Sample.amy); q_username := None |} Sample.bare =
      Json 200 (BProfile (sanitize Sample.amy) following followers
                  (Sample.posts Sample.amy)) /\
    (findOne (_id Sample.amy) (Following Sample.bare) = None ->
     following = []) /\
    (findOne (_id Sample.amy) (Followers Sample.bare) = None ->
     followers = []) /\
    (forall d, findOne (_id Sample.amy) (Following Sample.bare) = Some d ->
               following = ids d) /\
    (forall d, findOne (_id Sample.amy) (Followers Sample.bare) = Some d ->
               followers = ids d).
Proof.
  apply (find_by_id_without_lists Sample.regex_test Sample.posts
           (_id Sample.jon)
           {| q_userId := Some (_id Sample.amy); q_username := None |}
           Sample.bare Sample.amy); reflexivity.
Defined.

(** C3. An update of the name of a stored user stores nothing: the handler
    reads [password], which nothing binds, before it saves, so the request
    ends with the reference error, the store is as before and the user still
    has the old name; an update for a user that is not stored ends with the
    404. *)
Theorem update_lost_before_save :
  updateUser Sample.hash "pepper" (_id Sample.jon) None Sample.rename
    Sample.store =
  (Sample.store, Next (ReferenceError "password is not defined")) /\
  option_map name
    (findById (_id Sample.jon)
       (Users (fst (updateUser Sample.hash "pepper" (_id Sample.jon) None
                      Sample.rename Sample.store))))
  = Some "Jon" /\
  updateUser Sample.hash "pepper" Sample.nobody None Sample.rename
    Sample.store =
  (Sample.store, Next (CustomError 404 "User not found")).
Proof. repeat split. Qed.

(** ** More on registration *)

Lemma lookup_none_fresh (body : ReqBody) (s : Store) :
  findByUsernameOrEmail (str (b_username body)) (str (b_email body)) (Users s)
  = None ->
  fresh body s.
Proof.
  intros H u Hin. pose proof (find_none _ _ H u Hin) as Hn. simpl in Hn.
  apply orb_false_iff in Hn. destruct Hn as [Hu He].
  apply String.eqb_neq in Hu, He. now split.
Qed.

Lemma lookup_some_not_fresh (body : ReqBody) (s : Store) (v : User) :
  findByUsernameOrEmail (str (b_username body)) (str (b_email body)) (Users s)
  = Some v ->
  ~ fresh body s.
Proof.
  intros H Hf. rewrite (fresh_lookup body s Hf) in H. discriminate.
Qed.

(** The four ways a registration ends. *)
Lemma registerUser_cases
    (getGravatar : string -> string) (bcrypt_hash : string -> string -> string)
    (oid salt : string) (body : ReqBody) (s : Store) :
  (fields_present body /\ username_ok body /\ fresh body s /\
   registerUser getGravatar bcrypt_hash oid salt body s =
   (enrolled getGravatar bcrypt_hash oid salt body s,
    Json 201 (BUser (sanitize (account getGravatar bcrypt_hash oid salt body)))))
  \/
  (~ fields_present body /\
   registerUser getGravatar bcrypt_hash oid salt body s =
   (s, Next (CustomError 400
               "Fields are required (name, username, password, email)")))
  \/
  (fields_present body /\ ~ username_ok body /\
   registerUser getGravatar bcrypt_hash oid salt body s =
   (s, Next (CustomError 400
               "Username must be lowercase and cannot contain spaces")))
  \/
  (fields_present body /\ username_ok body /\ ~ fresh body s /\
   registerUser getGravatar bcrypt_hash oid salt body s =
   (s, Next (CustomError 409 "Username or email already exists"))).
Proof.
  unfold registerUser.
  destruct (negb (Js.truthy (b_name body)) || negb (Js.truthy (b_username body))
            || negb (Js.truthy (b_password body))
            || negb (Js.truthy (b_email body))) eqn:Ef.
  - right. left. split; [|reflexivity].
    intros Hp. rewrite (fields_present_guard body Hp) in Ef. discriminate.
  - assert (Hp : fields_present body).
    { apply orb_false_iff in Ef. destruct Ef as [Ef E4].
      apply orb_false_iff in Ef. destruct Ef as [Ef E3].
      apply orb_false_iff in Ef. destruct Ef as [E1 E2].
      apply negb_false_iff in E1, E2, E3, E4. now repeat split. }
    destruct (negb (str (b_username body) =? Js.toLowerCase (str (b_username body)))
              || Js.test_space (str (b_username body))) eqn:Eu.
    + right. right. left. split; [exact Hp|]. split; [|reflexivity].
      intros Hok. rewrite (username_ok_guard body Hok) in Eu. discriminate.
    + assert (Hok : username_ok body).
      { apply orb_false_iff in Eu. destruct Eu as [E1 E2].
        apply negb_false_iff, String.eqb_eq in E1. now split. }
      destruct (findByUsernameOrEmail (str (b_username body))
                  (str (b_email body)) (Users s)) as [v|] eqn:El.
      * right. right. right.
        split; [exact Hp|]. split; [exact Hok|]. split; [|reflexivity].
        now apply (lookup_some_not_fresh body s v).
      * left. split; [exact Hp|]. split; [exact Hok|]. split; [|reflexivity].
        now apply lookup_none_fresh.
Qed.

(** X1. A registration is answered with 201 exactly when its four fields
    are present, its username is its own lower case without white space, and
    no stored user has its username or its email.  Any other registration
    stores nothing and is passed on as an error: the 400 of the missing
    fields when a field is missing, whatever the username and the store; else
    the 400 of the username check, whatever the store; else the 409. *)
Theorem register_outcomes
    (getGravatar : string -> string) (bcrypt_hash : string -> string -> string)
    (oid salt : string) (body : ReqBody) (s : Store) :
  ((exists reply,
      snd (registerUser getGravatar bcrypt_hash oid salt body s)
      = Json 201 reply) <->
   fields_present body /\ username_ok body /\ fresh body s) /\
  (~ fields_present body ->
   registerUser getGravatar bcrypt_hash oid salt body s =
   (s, Next (CustomError 400
               "Fields are required (name, username, password, email)"))) /\
  (fields_present body -> ~ username_ok body ->
   registerUser getGravatar bcrypt_hash oid salt body s =
   (s, Next (CustomError 400
               "Username must be lowercase and cannot contain spaces"))) /\
  (fields_present body -> username_ok body -> ~ fresh body s ->
   registerUser getGravatar bcrypt_hash oid salt body s =
   (s, Next (CustomError 409 "Username or email already exists"))).
Proof.
  destruct (registerUser_cases getGravatar bcrypt_hash oid salt body s)
    as [(Hp & Hok & Hf & E) | [(Hp & E) | [(Hp & Hok & E) | (Hp & Hok & Hf & E)]]];
    rewrite E; simpl.
  - split; [split; [intros _; tauto | intros _; eexists; reflexivity]|].
    split; [tauto|]. split; intros; tauto.
  - split; [split; [intros [r H]; discriminate H | tauto]|].
    split; [reflexivity|]. split; intros; tauto.
  - split; [split; [intros [r H]; discriminate H | tauto]|].
    split; [tauto|]. split; [reflexivity | intros; tauto].
  - split; [split; [intros [r H]; discriminate H | tauto]|].
    split; [tauto|]. split; [intros; tauto | reflexivity].
Qed.

Lemma NoDup_push (A : Type) (x : A) (l : list A) :
  NoDup l -> ~ In x l -> NoDup (l ++ [x]).
Proof.
  induction 1 as [|y l Hy Hl IH]; simpl; intros Hx.
  - constructor; [tauto | constructor].
  - constructor.
    + rewrite in_app_iff. simpl. intros [H|[H|[]]]; [tauto|].
      apply Hx. now left.
    + apply IH. intros H. apply Hx. now right.
Qed.

(** A store reads after a registration as [enrolled] or as before. *)
Lemma registerUser_store
    (getGravatar : string -> string) (bcrypt_hash : string -> string -> string)
    (oid salt : string) (body : ReqBody) (s : Store) :
  (fields_present body /\ username_ok body /\ fresh body s /\
   fst (registerUser getGravatar bcrypt_hash oid salt body s) =
   enrolled getGravatar bcrypt_hash oid salt body s) \/
  fst (registerUser getGravatar bcrypt_hash oid salt body s) = s.
Proof.
  destruct (registerUser_cases getGravatar bcrypt_hash oid salt body s)
    as [(Hp & Hok & Hf & E) | [(Hp & E) | [(Hp & Hok & E) | (Hp & Hok & Hf & E)]]];
    rewrite E; simpl; auto.
Qed.

(** The array read for a user from a collection that got an empty
    document more. *)
Lemma ids_after_empty_doc (uid oid : Id) (ds : list ListDoc) :
  match findOne uid (ds ++ [{| userId := oid; ids := [] |}]) with
  | Some d => ids d
  | None => []
  end =
  match findOne uid ds with
  | Some d => ids d
  | None => []
  end.
Proof.
  unfold findOne. induction ds as [|d r IH]; simpl.
  - now destruct (oid =? uid).
  - now destruct (userId d =? uid).
Qed.

Lemma enrolled_following
    (getGravatar : string -> string) (bcrypt_hash : string -> string -> string)
    (oid salt : string) (body : ReqBody) (s : Store) (x : Id) :
  following_of x (enrolled getGravatar bcrypt_hash oid salt body s)
  = following_of x s.
Proof. unfold following_of. simpl. apply ids_after_empty_doc. Qed.

Lemma enrolled_followers
    (getGravatar : string -> string) (bcrypt_hash : string -> string -> string)
    (oid salt : string) (body : ReqBody) (s : Store) (x : Id) :
  followers_of x (enrolled getGravatar bcrypt_hash oid salt body s)
  = followers_of x s.
Proof. unfold followers_of. simpl. apply ids_after_empty_doc. Qed.

(** A registration, answered with 201 or not, leaves every list as it
    reads. *)
Lemma registerUser_lists
    (getGravatar : string -> string) (bcrypt_hash : string -> string -> string)
    (oid salt : string) (body : ReqBody) (s : Store) (x : Id) :
  following_of x (fst (registerUser getGravatar bcrypt_hash oid salt body s))
  = following_of x s /\
  followers_of x (fst (registerUser getGravatar bcrypt_hash oid salt body s))
  = followers_of x s.
Proof.
  destruct (registerUser_store getGravatar bcrypt_hash oid salt body s)
    as [(_ & _ & _ & ->) | ->]; [|now split].
  split; [apply enrolled_following | apply enrolled_followers].
Qed.

(** A user found by id is still found when the collection grows. *)
Lemma findById_grown (id : Id) (us : list User) (v u : User) :
  findById id us = Some u -> findById id (us ++ [v]) = Some u.
Proof.
  unfold findById. induction us as [|w r IH]; simpl; [discriminate|].
  destruct (_id w =? id); [trivial | exact IH].
Qed.

Lemma registerUser_keeps_users
    (getGravatar : string -> string) (bcrypt_hash : string -> string -> string)
    (oid salt : string) (body : ReqBody) (s : Store) (id : Id) (u : User) :
  findById id (Users s) = Some u ->
  findById id
    (Users (fst (registerUser getGravatar bcrypt_hash oid salt body s)))
  = Some u.
Proof.
  intros H.
  destruct (registerUser_store getGravatar bcrypt_hash oid salt body s)
    as [(_ & _ & _ & ->) | ->]; [|exact H].
  simpl. now apply findById_grown.
Qed.

Lemma followUser_users (a b : Id) (s : Store) :
  Users (fst (followUser a b s)) = Users s.
Proof.
  destruct (String.eqb_spec a b) as [->|Hab].
  - now rewrite followUser_self.
  - destruct (findById b (Users s)) as [u|] eqn:E.
    + apply (users_after a b s u Hab E).
    + now rewrite (followUser_absent a b s Hab E).
Qed.

(** What holds of a store and is kept by every request holds after any
    sequence of requests. *)
Lemma serve_all_keeps
    (getGravatar : string -> string) (bcrypt_hash : string -> string -> string)
    (P : Store -> Prop) :
  (forall r s, P s -> P (serve getGravatar bcrypt_hash r s)) ->
  forall rs s, P s -> P (serve_all getGravatar bcrypt_hash rs s).
Proof.
  intros Hstep rs. induction rs as [|r rest IH]; simpl; intros s Hs.
  - exact Hs.
  - apply IH. now apply Hstep.
Qed.

Lemma registerUser_accounts
    (getGravatar : string -> string) (bcrypt_hash : string -> string -> string)
    (oid salt : string) (body : ReqBody) (s : Store) :
  unique_accounts s ->
  unique_accounts (fst (registerUser getGravatar bcrypt_hash oid salt body s)).
Proof.
  intros [Hu He].
  destruct (registerUser_store getGravatar bcrypt_hash oid salt body s)
    as [(_ & _ & Hf & ->) | ->]; [|now split].
  unfold unique_accounts. simpl. rewrite !map_app. simpl.
  split; apply NoDup_push; trivial; rewrite in_map_iff;
    intros [u [Heq Hin]]; destruct (Hf u Hin) as [H1 H2]; contradiction.
Qed.

(** X2. When no username and no email is stored twice, that is still so
    after any sequence of registrations and follow requests served one after
    the other. *)
Theorem accounts_stay_unique
    (getGravatar : string -> string) (bcrypt_hash : string -> string -> string)
    (rs : list Request) (s : Store) :
  unique_accounts s ->
  unique_accounts (serve_all getGravatar bcrypt_hash rs s).
Proof.
  apply serve_all_keeps. intros [oid salt body | a b] s0 H0; simpl.
  - now apply registerUser_accounts.
  - unfold unique_accounts. now rewrite followUser_users.
Qed.

(** X3. After a registration that was answered with 201, another
    registration with its four fields present and a well-formed username is
    answered with the 409, and stores nothing, when it has the username or
    the email of the first. *)
Theorem register_again_conflict
    (getGravatar : string -> string) (bcrypt_hash : string -> string -> string)
    (oid salt oid' salt' : string) (body body' : ReqBody) (s s1 : Store)
    (reply : Body) :
  registerUser getGravatar bcrypt_hash oid salt body s = (s1, Json 201 reply) ->
  fields_present body' -> username_ok body' ->
  str (b_username body') = str (b_username body) \/
  str (b_email body') = str (b_email body) ->
  registerUser getGravatar bcrypt_hash oid' salt' body' s1 =
  (s1, Next (CustomError 409 "Username or email already exists")).
Proof.
  intros H Hp Hok Hsame.
  assert (Hs1 : s1 = enrolled getGravatar bcrypt_hash oid salt body s).
  { destruct (registerUser_cases getGravatar bcrypt_hash oid salt body s)
      as [(_ & _ & _ & E) | [(_ & E) | [(_ & _ & E) | (_ & _ & _ & E)]]];
      rewrite E in H; congruence. }
  unfold registerUser.
  rewrite (fields_present_guard body' Hp), (username_ok_guard body' Hok).
  destruct (taken_lookup (str (b_username body')) (str (b_email body'))
              (Users s1) (account getGravatar bcrypt_hash oid salt body))
    as [v ->]; [| |reflexivity].
  - rewrite Hs1. simpl. rewrite in_app_iff. right. now left.
  - simpl. destruct Hsame as [->| ->]; auto.
Qed.

(** X4. After a registration that was answered with 201, a login with the
    same username and password is answered with 200, the new user without its
    password, and a token over the id the registration gave and the username,
    when the secret is set and [bcrypt.compare] accepts the hash the
    registration stored for the password. *)
Theorem register_then_login
    (getGravatar : string -> string) (bcrypt_hash : string -> string -> string)
    (bcrypt_compare : string -> string -> bool) (secret : option string)
    (oid salt : string) (body : ReqBody) (s s1 : Store) (reply : Body) :
  registerUser getGravatar bcrypt_hash oid salt body s = (s1, Json 201 reply) ->
  bcrypt_compare (str (b_password body))
    (bcrypt_hash salt (str (b_password body))) = true ->
  Js.truthy secret = true ->
  reply = BUser (sanitize (account getGravatar bcrypt_hash oid salt body)) /\
  loginUser bcrypt_compare secret (credentials body) s1 =
  Json 200
    (BUserToken (sanitize (account getGravatar bcrypt_hash oid salt body))
       {| tok_payload := {| p_id := oid;
                            p_username := str (b_username body) |};
          tok_key := str secret; tok_expiresIn := "300h" |}).
Proof.
  intros H Hc Hs.
  destruct (registerUser_cases getGravatar bcrypt_hash oid salt body s)
    as [(_ & _ & Hf & E) | [(_ & E) | [(_ & _ & E) | (_ & _ & _ & E)]]];
    rewrite E in H; try discriminate.
  injection H as <- <-. split; [reflexivity|].
  apply (loginUser_succeeds bcrypt_compare secret (credentials body)
           (enrolled getGravatar bcrypt_hash oid salt body s)
           (account getGravatar bcrypt_hash oid salt body)).
  - simpl. apply findByUsername_new; [|reflexivity].
    intros u Hu. now apply Hf.
  - exact Hc.
  - exact Hs.
Qed.

(** ** More on the follow relation *)

(** A follow request leaves the store as it was, or passed both checks. *)
Lemma followUser_store (a b : Id) (s : Store) :
  fst (followUser a b s) = s \/
  (a <> b /\ exists u, findById b (Users s) = Some u).
Proof.
  destruct (String.eqb_spec a b) as [->|Hab].
  - left. now rewrite followUser_self.
  - destruct (findById b (Users s)) as [u|] eqn:E.
    + right. split; [assumption | now exists u].
    + left. now rewrite (followUser_absent a b s Hab E).
Qed.





Lemma followUser_known (a b : Id) (s : Store) :
  following_known s -> following_known (fst (followUser a b s)).
Proof.
  intros Hs.
  destruct (followUser_store a b s) as [->|[Hab [u Hu]]]; [assumption|].
  intros x y. rewrite (users_after a b s u Hab Hu).
  destruct (String.eqb_spec x a) as [->|Hx].
  - rewrite (following_after_same a b s u Hab Hu).
    unfold toggled_following.
    destruct (Js.includes b (following_of a s)).
    + rewrite In_without. intros [H _]. now apply (Hs a).
    + rewrite In_push. intros [H| ->]; [now apply (Hs a) | now exists u].
  - rewrite (following_after_other a b s u Hab Hu x Hx). apply Hs.
Qed.

(** X5. When the two list collections agree for every pair of users, they
    still agree after any sequence of registrations and follow requests
    served one after the other. *)
Theorem requests_keep_lists_agreeing
    (getGravatar : string -> string) (bcrypt_hash : string -> string -> string)
    (rs : list Request) (s : Store) :
  consistent s ->
  consistent (serve_all getGravatar bcrypt_hash rs s).
Proof.
  apply serve_all_keeps.
  intros [oid salt body | a b] s0 H0; simpl.
  - intros x y.
    destruct (registerUser_lists getGravatar bcrypt_hash oid salt body s0 x)
      as [-> _].
    destruct (registerUser_lists getGravatar bcrypt_hash oid salt body s0 y)
      as [_ ->].
    apply H0.
  - now apply followUser_consistent.
Qed.



(** X8. When every id in a following list is the id of a stored user, that
    is still so after any sequence of registrations and follow requests
    served one after the other. *)
Theorem following_stays_known
    (getGravatar : string -> string) (bcrypt_hash : string -> string -> string)
    (rs : list Request) (s : Store) :
  following_known s ->
  following_known (serve_all getGravatar bcrypt_hash rs s).
Proof.
  apply serve_all_keeps. intros [oid salt body | a b] s0 H0; simpl.
  - intros x y.
    destruct (registerUser_lists getGravatar bcrypt_hash oid salt body s0 x)
      as [-> _].
    intros Hy. destruct (H0 x y Hy) as [u Hu]. exists u.
    now apply registerUser_keeps_users.
  - now apply followUser_known.
Qed.

(** X9. A registration, answered with 201 or not, takes nothing away:
    every following list and every follower list reads as before, and a user
    that was found by id is found as before. *)
Theorem register_takes_nothing_away
    (getGravatar : string -> string) (bcrypt_hash : string -> string -> string)
    (oid salt : string) (body : ReqBody) (s : Store) :
  (forall x : Id,
     following_of x
       (fst (registerUser getGravatar bcrypt_hash oid salt body s))
     = following_of x s /\
     followers_of x
       (fst (registerUser getGravatar bcrypt_hash oid salt body s))
     = followers_of x s) /\
  (forall (id : Id) (u : User),
     findById id (Users s) = Some u ->
     findById id
       (Users (fst (registerUser getGravatar bcrypt_hash oid salt body s)))
     = Some u).
Proof.
  split.
  - intros x. apply registerUser_lists.
  - intros id u. apply registerUser_keeps_users.
Qed.

Lemma owners_after_save (d : ListDoc) (ds : list ListDoc) (x : Id) :
  In x (map userId (save d ds)) -> In x (map userId ds) \/ x = userId d.
Proof.
  induction ds as [|d' r IH]; simpl.
  - intros [H|[]]; auto.
  - destruct (String.eqb_spec (userId d') (userId d)) as [E|E]; simpl.
    + intros [H|H]; auto.
    + intros [H|H]; auto. destruct (IH H); auto.
Qed.

Lemma save_one_list_each (d : ListDoc) (ds : list ListDoc) :
  one_list_each ds -> one_list_each (save d ds).
Proof.
  unfold one_list_each. induction ds as [|d' r IH]; simpl; intros H.
  - constructor; [tauto | constructor].
  - inversion H as [|? ? Hd Hr]; subst.
    destruct (String.eqb_spec (userId d') (userId d)) as [E|E]; simpl.
    + rewrite <- E. now constructor.
    + constructor; [|now apply IH].
      intros Hin. destruct (owners_after_save d r _ Hin); congruence.
Qed.

Lemma followUser_one_list_each (a b : Id) (s : Store) :
  one_list_each (Following s) /\ one_list_each (Followers s) ->
  one_list_each (Following (fst (followUser a b s))) /\
  one_list_each (Followers (fst (followUser a b s))).
Proof.
  intros [Hg Hr].
  destruct (String.eqb_spec a b) as [->|Hab].
  - rewrite followUser_self. now split.
  - destruct (findById b (Users s)) as [u|] eqn:E.
    + rewrite (followUser_present a b s u Hab E). simpl.
      split; now apply save_one_list_each.
    + rewrite (followUser_absent a b s Hab E). now split.
Qed.

(** X10. Follow requests make the list documents that are missing and never
    a second one: when no user owns two documents of a list collection, that
    is still so after any sequence of follow requests, and after a follow
    request answered with 200 the actor has a document in the following
    collection and the target has one in the follower collection. *)
Theorem follow_one_list_each (s : Store) :
  (one_list_each (Following s) -> one_list_each (Followers s) ->
   forall reqs : list (Id * Id),
     one_list_each (Following (follow_all reqs s)) /\
     one_list_each (Followers (follow_all reqs s))) /\
  (forall (a b : Id) (s' : Store) (body : Body),
     followUser a b s = (s', Json 200 body) ->
     exists dg dr : ListDoc,
       findOne a (Following s') = Some dg /\ userId dg = a /\
       findOne b (Followers s') = Some dr /\ userId dr = b).
Proof.
  split.
  - intros Hg Hr reqs. revert s Hg Hr.
    induction reqs as [|[a b] r IH]; simpl; intros s Hg Hr; [now split|].
    destruct (followUser_one_list_each a b s (conj Hg Hr)) as [Hg' Hr'].
    now apply IH.
  - intros a b s' body H.
    destruct (followUser_ok_inv a b s s' body H) as [Hab [u Hu]].
    rewrite (followUser_present a b s u Hab Hu) in H.
    injection H as <- _.
    eexists _, _. simpl.
    rewrite (findOne_save_same {| userId := a; ids := _ |}).
    rewrite (findOne_save_same {| userId := b; ids := _ |}).
    repeat split.
Qed.




(** ** More on finding users *)

(** The lookup by id of a stored user, with the lists as they read. *)
Lemma findUsers_by_id
    (regex_test : string -> string -> bool) (getPosts : User -> list Post)
    (caller : Id) (q : Query) (s : Store) (u : User) :
  Js.truthy (q_userId q) = true ->
  findById (str (q_userId q)) (Users s) = Some u ->
  findUsers regex_test getPosts caller q s =
  Json 200 (BProfile (sanitize u) (following_of (str (q_userId q)) s)
              (followers_of (str (q_userId q)) s) (getPosts u)).
Proof. intros Hq Hu. unfold findUsers. now rewrite Hq, Hu. Qed.

Lemma In_map_filter (A B : Type) (f : A -> B) (p : A -> bool) (l : list A)
    (y : B) :
  In y (map f (filter p l)) <-> exists x, In x l /\ p x = true /\ y = f x.
Proof.
  rewrite in_map_iff. split.
  - intros [x [Hy Hx]]. apply filter_In in Hx. exists x. intuition.
  - intros [x [Hx [Hp Hy]]]. exists x. split; [auto|].
    apply filter_In. auto.
Qed.

(** X14. With a user id in the query, the find request is the lookup by
    id whatever else the request holds: the reply does not depend on the
    username of the query, on the caller (who can look up their own profile),
    or on the pattern matcher. *)
Theorem find_by_id_ignores_rest
    (regex_test regex_test' : string -> string -> bool)
    (getPosts : User -> list Post) (caller caller' : Id)
    (uid : string) (pat pat' : option string) (s : Store) :
  uid <> "" ->
  findUsers regex_test getPosts caller
    {| q_userId := Some uid; q_username := pat |} s =
  findUsers regex_test' getPosts caller'
    {| q_userId := Some uid; q_username := pat' |} s /\
  (forall u, findById uid (Users s) = Some u ->
     findUsers regex_test getPosts uid
       {| q_userId := Some uid; q_username := pat |} s =
     Json 200 (BProfile (sanitize u) (following_of uid s)
                 (followers_of uid s) (getPosts u))).
Proof.
  intros Hne. apply String.eqb_neq in Hne.
  split.
  - unfold findUsers. simpl. now rewrite Hne.
  - intros u Hu. apply findUsers_by_id; simpl; [now rewrite Hne | exact Hu].
Qed.

(** X15. A search by username that is answered with 200 lists at least one
    user, and lists exactly the stored users whose username matches the
    pattern and who are not the caller, without their passwords; the caller
    is never listed. *)
Theorem find_by_username_lists_matches
    (regex_test : string -> string -> bool) (getPosts : User -> list Post)
    (caller : Id) (q : Query) (s : Store) (l : list Sanitized) :
  Js.truthy (q_userId q) = false ->
  findUsers regex_test getPosts caller q s = Json 200 (BUsers l) ->
  Js.truthy (q_username q) = true ->
  l <> [] /\
  (forall x, In x l <->
     exists u, In u (Users s) /\
               regex_test (str (q_username q)) (username u) = true /\
               _id u <> caller /\ x = sanitize u) /\
  (forall x, In x l -> s_id x <> caller).
Proof.
  intros Hq H Hn. unfold findUsers in H. rewrite Hq, Hn in H.
  destruct (Nat.eqb
              (length (filter
                         (fun u => regex_test (str (q_username q)) (username u)
                                   && negb (_id u =? caller)) (Users s)))
              0) eqn:El; [discriminate|].
  injection H as <-.
  assert (Hchar : forall x,
    In x (map sanitize
            (filter (fun u => regex_test (str (q_username q)) (username u)
                              && negb (_id u =? caller)) (Users s))) <->
    exists u, In u (Users s) /\
              regex_test (str (q_username q)) (username u) = true /\
              _id u <> caller /\ x = sanitize u).
  { intros x. rewrite In_map_filter. split.
    - intros [u [Hin [Hp ->]]]. apply andb_true_iff in Hp.
      destruct Hp as [Hm Hc]. apply negb_true_iff, String.eqb_neq in Hc.
      exists u. auto.
    - intros [u [Hin [Hm [Hc ->]]]]. exists u. repeat split; auto.
      apply andb_true_iff. split; [exact Hm|].
      now apply negb_true_iff, String.eqb_neq. }
  split; [|split].
  - intros Hnil. apply (f_equal (@length Sanitized)) in Hnil.
    rewrite length_map in Hnil. rewrite Hnil in El. discriminate.
  - exact Hchar.
  - intros x Hx. apply Hchar in Hx. destruct Hx as [u [_ [_ [Hc ->]]]].
    exact Hc.
Qed.

(** X16. Without a user id and without a username in the query, the find
    request is always answered with 200 and lists exactly the stored users
    who are not the caller, without their passwords and in the order of the
    collection; the caller is never listed. *)
Theorem find_all_lists_others
    (regex_test : string -> string -> bool) (getPosts : User -> list Post)
    (caller : Id) (q : Query) (s : Store) :
  Js.truthy (q_userId q) = false -> Js.truthy (q_username q) = false ->
  exists l : list Sanitized,
    findUsers regex_test getPosts caller q s = Json 200 (BUsers l) /\
    (forall x, In x l <->
       exists u, In u (Users s) /\ _id u <> caller /\ x = sanitize u) /\
    (forall x, In x l -> s_id x <> caller) /\
    l = map sanitize (filter (fun u => negb (_id u =? caller)) (Users s)).
Proof.
  intros Hq Hn. unfold findUsers. rewrite Hq, Hn.
  eexists. split; [reflexivity|].
  assert (Hchar : forall x,
    In x (map sanitize (filter (fun u => negb (_id u =? caller)) (Users s)))
    <-> exists u, In u (Users s) /\ _id u <> caller /\ x = sanitize u).
  { intros x. rewrite In_map_filter. split.
    - intros [u [Hin [Hc ->]]]. apply negb_true_iff, String.eqb_neq in Hc.
      exists u. auto.
    - intros [u [Hin [Hc ->]]]. exists u. repeat split; auto.
      now apply negb_true_iff, String.eqb_neq. }
  split; [exact Hchar|]. split; [|reflexivity].
  intros x Hx. apply Hchar in Hx. destruct Hx as [u [_ [Hc ->]]]. exact Hc.
Qed.


(** ** More on login and update *)


(** X19. No update request stores anything or is answered with a status:
    the store is as before, and the request is passed on as the 404 when the
    user is not stored and as the reference error on [password] when the user
    is stored, whatever fields and file it carries. *)
Theorem update_never_stores
    (bcrypt_hash : string -> string -> string) (salt : string) (actor : Id)
    (file : option string) (body : ReqBody) (s : Store) :
  fst (updateUser bcrypt_hash salt actor file body s) = s /\
  (forall status reply,
     snd (updateUser bcrypt_hash salt actor file body s)
     <> Json status reply) /\
  (findById actor (Users s) = None ->
   snd (updateUser bcrypt_hash salt actor file body s) =
   Next (CustomError 404 "User not found")) /\
  (forall u, findById actor (Users s) = Some u ->
   snd (updateUser bcrypt_hash salt actor file body s) =
   Next (ReferenceError "password is not defined")).
Proof.
  rewrite updateUser_never_saves. simpl.
  split; [reflexivity|]. split; [|split].
  - intros status reply. now destruct (findById actor (Users s)).
  - now intros ->.
  - now intros u ->.
Qed.

(** ** The further theorems on the sample store *)

Lemma empty_lists_read_empty (s : Store) :
  (forall d, In d (Following s) -> ids d = []) ->
  (forall d, In d (Followers s) -> ids d = []) ->
  forall a, following_of a s = [] /\ followers_of a s = [].
Proof.
  intros Hg Hr a. unfold following_of, followers_of. split.
  - destruct (findOne a (Following s)) as [d|] eqn:E; [|reflexivity].
    apply find_some in E. now apply Hg.
  - destruct (findOne a (Followers s)) as [d|] eqn:E; [|reflexivity].
    apply find_some in E. now apply Hr.
Qed.

Lemma sample_lists_empty (a : Id) :
  following_of a Sample.store = [] /\ followers_of a Sample.store = [].
Proof.
  apply empty_lists_read_empty; simpl; intros d [<-|[<-|[]]]; reflexivity.
Qed.



Lemma sample_following_known : following_known Sample.store.
Proof.
  intros a b. destruct (sample_lists_empty a) as [-> _]. intros [].
Qed.

Lemma sample_unique_accounts : unique_accounts Sample.store.
Proof.
  split; simpl; repeat constructor; simpl; intuition discriminate.
Qed.

Lemma accounts_stay_unique_witness :
  unique_accounts
    (serve_all Sample.gravatar Sample.hash sample_requests Sample.store).
Proof.
  apply (accounts_stay_unique Sample.gravatar Sample.hash sample_requests
           Sample.store).
  exact sample_unique_accounts.
Defined.

Lemma register_again_conflict_witness :
  registerUser Sample.gravatar Sample.hash "65f1a00000000000000000fe" "salt"
    newcomer_again
    (enrolled Sample.gravatar Sample.hash Sample.nobody "pepper"
       Sample.newcomer Sample.store) =
  (enrolled Sample.gravatar Sample.hash Sample.nobody "pepper"
     Sample.newcomer Sample.store,
   Next (CustomError 409 "Username or email already exists")).
Proof.
  apply (register_again_conflict Sample.gravatar Sample.hash
           Sample.nobody "pepper" "65f1a00000000000000000fe" "salt"
           Sample.newcomer newcomer_again Sample.store _
           (BUser (sanitize (account Sample.gravatar Sample.hash Sample.nobody
                               "pepper" Sample.newcomer)))).
  - reflexivity.
  - unfold fields_present. simpl. tauto.
  - split; reflexivity.
  - right. reflexivity.
Defined.

Lemma register_then_login_witness :
  BUser (sanitize (account Sample.gravatar Sample.hash Sample.nobody "pepper"
                     Sample.newcomer)) =
  BUser (sanitize (account Sample.gravatar Sample.hash Sample.nobody "pepper"
                     Sample.newcomer)) /\
  loginUser Sample.compare Sample.key (credentials Sample.newcomer)
    (enrolled Sample.gravatar Sample.hash Sample.nobody "pepper"
       Sample.newcomer Sample.store) =
  Json 200
    (BUserToken
       (sanitize (account Sample.gravatar Sample.hash Sample.nobody "pepper"
                    Sample.newcomer))
       {| tok_payload := {| p_id := Sample.nobody;
                            p_username := str (b_username Sample.newcomer) |};
          tok_key := str Sample.key; tok_expiresIn := "300h" |}).
Proof.
  apply (register_then_login Sample.gravatar Sample.hash Sample.compare
           Sample.key Sample.nobody "pepper" Sample.newcomer Sample.store).
  - reflexivity.
  - reflexivity.
  - reflexivity.
Defined.

Lemma requests_keep_lists_agreeing_witness :
  consistent
    (serve_all Sample.gravatar Sample.hash sample_requests Sample.store).
Proof.
  apply (requests_keep_lists_agreeing Sample.gravatar Sample.hash
           sample_requests Sample.store).
  exact sample_store_consistent.
Defined.



Lemma following_stays_known_witness :
  following_known
    (serve_all Sample.gravatar Sample.hash sample_requests Sample.store).
Proof.
  apply (following_stays_known Sample.gravatar Sample.hash sample_requests
           Sample.store).
  exact sample_following_known.
Defined.




Lemma sample_id_not_empty : _id Sample.amy <> "".
Proof. discriminate. Qed.


Lemma find_by_id_ignores_rest_witness :
  findUsers Sample.regex_test Sample.posts (_id Sample.jon)
    {| q_userId := Some (_id Sample.amy); q_username := Some "jo" |}
    sample_followed =
  findUsers Sample.compare Sample.posts (_id Sample.amy)
    {| q_userId := Some (_id Sample.amy); q_username := None |}
    sample_followed /\
  (forall u, findById (_id Sample.amy) (Users sample_followed) = Some u ->
     findUsers Sample.regex_test Sample.posts (_id Sample.amy)
       {| q_userId := Some (_id Sample.amy); q_username := Some "jo" |}
       sample_followed =
     Json 200 (BProfile (sanitize u)
                 (following_of (_id Sample.amy) sample_followed)
                 (followers_of (_id Sample.amy) sample_followed)
                 (Sample.posts u))).
Proof.
  apply (find_by_id_ignores_rest Sample.regex_test Sample.compare Sample.posts
           (_id Sample.jon) (_id Sample.amy) (_id Sample.amy)
           (Some "jo") None sample_followed).
  exact sample_id_not_empty.
Defined.

Lemma find_by_username_lists_matches_witness :
  [sanitize Sample.amy] <> [] /\
  (forall x, In x [sanitize Sample.amy] <->
     exists u, In u (Users Sample.store) /\
               Sample.regex_test "AM" (username u) = true /\
               _id u <> _id Sample.jon /\ x = sanitize u) /\
  (forall x, In x [sanitize Sample.amy] -> s_id x <> _id Sample.jon).
Proof.
  apply (find_by_username_lists_matches Sample.regex_test Sample.posts
           (_id Sample.jon) {| q_userId := None; q_username := Some "AM" |}
           Sample.store [sanitize Sample.amy]); reflexivity.
Defined.

Lemma find_all_lists_others_witness :
  exists l : list Sanitized,
    findUsers Sample.regex_test Sample.posts (_id Sample.jon)
      {| q_userId := Some ""; q_username := None |} Sample.store =
    Json 200 (BUsers l) /\
    (forall x, In x l <->
       exists u, In u (Users Sample.store) /\ _id u <> _id Sample.jon /\
                 x = sanitize u) /\
    (forall x, In x l -> s_id x <> _id Sample.jon) /\
    l = map sanitize
          (filter (fun u => negb (_id u =? _id Sample.jon))
             (Users Sample.store)).
Proof.
  apply (find_all_lists_others Sample.regex_test Sample.posts
           (_id Sample.jon) {| q_userId := Some ""; q_username := None |}
           Sample.store); reflexivity.
Defined.

